(** * The ECS deployment-pipeline planner of PipeCD

    A shallow embedding of [pkg/app/piped/planner/ecs/ecs.go]: the planner's
    [Register], [Plan] and [determineVersion], together with the parts of the
    packages they import that the planner touches.

    Conventions of the embedding:
    - a Go [error] is its message; [(v, err)] results are a [result];
    - a pointer that may be [nil] is an [option];
    - the logger is a writer: [Plan] returns the entries it logged;
        - [time.Now()] is read once on every path of [Plan], the value read is
      the parameter [now];
    - the task-definition loader and the deploy-source provider are external
      collaborators, taken as functions;
    - what [Plan] reaches through a pointer without a check (the deployment
      and its trigger, the deploy source of a successful [Get] and its
      deployment configuration) is taken to be there. *)

From Stdlib Require Import ZArith.
From stdpp Require Import base decidable countable strings list gmap.

Local Open Scope Z_scope.

(** ** Go preliminaries *)

Definition error := string.

Inductive result (A : Type) : Type :=
| Ok (a : A)
| Err (e : error).
Arguments Ok {A} a.
Arguments Err {A} e.

(** [strings.HasPrefix] and [strings.Contains] on byte strings; they are what
    "the summary contains/mentions ..." is read as. *)
Fixpoint HasPrefix (s prefix : string) {struct prefix} : bool :=
  match prefix, s with
  | EmptyString, _ => true
  | String _ _, EmptyString => false
  | String a prefix', String b s' =>
      if Ascii.eqb a b then HasPrefix s' prefix' else false
  end.

Fixpoint Contains (s substr : string) : bool :=
  HasPrefix s substr ||
  match s with
  | EmptyString => false
  | String _ s' => Contains s' substr
  end.

Module time.
(** A [time.Time], as the Unix seconds the stages are stamped with. *)
Definition Time := Z.
End time.

Module context.
(** A [context.Context], as what [ctx.Err()] answers. *)
Record Context := { Err : option error }.
Definition Background : Context := {| Err := None |}.
End context.

Module zap.
Inductive Level := DebugLevel | InfoLevel | WarnLevel | ErrorLevel.
Inductive Field := Error (err : error).
Record Entry := { Level_ : Level; Message : string; Fields : list Field }.

(** [logger.Warn(msg, fields...)] *)
Definition Warn (msg : string) (fields : list Field) : Entry :=
  {| Level_ := WarnLevel; Message := msg; Fields := fields |}.

#[global] Instance Level_eq_dec : EqDecision Level.
Proof. solve_decision. Defined.
End zap.

(** ** Package [model] *)
Module model.
(** Modelled from the spec: the "sync strategy enum value" of a trigger,
    whose declaration is outside the files verified here.  The planner names
    one value of it, [SyncStrategy_QUICK_SYNC]; every other value is a
    [SyncStrategy_other]. *)
Inductive SyncStrategy :=
| SyncStrategy_QUICK_SYNC
| SyncStrategy_other (n : nat).

#[global] Instance SyncStrategy_eq_dec : EqDecision SyncStrategy.
Proof. solve_decision. Defined.

(** Modelled from the spec: the "fixed enumeration value" a planner is
    registered under, declared outside the files verified here.  The planner
    names [ApplicationKind_ECS]; every other value is an
    [ApplicationKind_other]. *)
Inductive ApplicationKind :=
| ApplicationKind_ECS
| ApplicationKind_other (n : nat).

#[global] Instance ApplicationKind_eq_dec : EqDecision ApplicationKind.
Proof. solve_decision. Defined.

#[global] Instance ApplicationKind_countable : Countable ApplicationKind.
Proof.
  refine (inj_countable'
            (fun k => match k with
                      | ApplicationKind_ECS => None
                      | ApplicationKind_other n => Some n
                      end)
            (fun o => match o with
                      | None => ApplicationKind_ECS
                      | Some n => ApplicationKind_other n
                      end) _).
  intros []; reflexivity.
Defined.

Record DeploymentTrigger := { SyncStrategy_ : SyncStrategy }.
Record Deployment := { Trigger : DeploymentTrigger }.

(** Modelled from the spec: the stage descriptor [model.PipelineStage] and
    the enumeration of stage kinds, declared outside the files verified
    here.  A stage has a kind
    "from a fixed enumeration, e.g. deploy, traffic-configuration,
    rollback", "a stable ordering index, and a creation timestamp". *)
Inductive Stage := StageDeploy | StageTrafficConfiguration | StageRollback.

#[global] Instance Stage_eq_dec : EqDecision Stage.
Proof. solve_decision. Defined.

(** Modelled from the spec: a stage, with its kind, its "stable ordering
    index" and its "creation timestamp". *)
Record PipelineStage := { Name : Stage; Index : Z; CreatedAt : Z }.
End model.

(** ** Package [config] *)
Module config.
Section Spec.
(** [config.PipelineStage], a stage the user configured: the planner only
    counts them. *)
Context {PipelineStage : Type}.

Record ECSDeploymentInput :=
  { TaskDefinitionFile : string; AutoRollback : bool }.
Record DeploymentPipeline := { Stages : list PipelineStage }.
Record ECSDeploymentSpec :=
  { Input : ECSDeploymentInput; Pipeline : option DeploymentPipeline }.
Record Config := { ECSDeploymentSpec_ : option ECSDeploymentSpec }.
End Spec.
Arguments DeploymentPipeline : clear implicits.
Arguments ECSDeploymentSpec : clear implicits.
Arguments Config : clear implicits.
End config.

(** ** Package [deploysource] *)
Module deploysource.
Section Provider.
Context {PipelineStage : Type}.

Record DeploySource :=
  { AppDir : string; DeploymentConfig : config.Config PipelineStage }.

(** The interface [Provider]: [Get(ctx, w)], the sink [w] left out. *)
Record Provider := { Get : context.Context -> result DeploySource }.
End Provider.
Arguments DeploySource : clear implicits.
Arguments Provider : clear implicits.
End deploysource.

(** ** Package [planner] *)
Module planner.
Section Input.
Context {PipelineStage : Type}.

Record Input :=
  { Deployment : model.Deployment;
    MostRecentSuccessfulCommitHash : string;
    TargetDSP : deploysource.Provider PipelineStage }.
End Input.
Arguments Input : clear implicits.

Record Output :=
  { Version : string; Stages : list model.PipelineStage; Summary : string }.

(** The zero value a named result starts with. *)
Definition zero : Output := {| Version := ""; Stages := []; Summary := "" |}.

Definition set_Version (v : string) (out : Output) : Output :=
  {| Version := v; Stages := Stages out; Summary := Summary out |}.
Definition set_Stages (l : list model.PipelineStage) (out : Output) : Output :=
  {| Version := Version out; Stages := l; Summary := Summary out |}.
Definition set_Summary (s : string) (out : Output) : Output :=
  {| Version := Version out; Stages := Stages out; Summary := s |}.

(** Modelled from the spec: the process-wide planner registry, which lives
    outside the files verified here.  It is "keyed by a fixed enumeration value and must fail loudly on
    duplicate registration for the same kind": its [Register] answers an
    error, and keeps the planner it has, when the kind is taken. *)
Record registry (P : Type) := { planners : gmap model.ApplicationKind P }.
Arguments planners {P} r.

Definition registry_empty {P : Type} : registry P := {| planners := ∅ |}.

(** Modelled from the spec: the registry's [Register], which "must fail
    loudly on duplicate registration for the same kind". *)
Definition registry_Register {P : Type} (k : model.ApplicationKind) (p : P)
    (r : registry P) : registry P * option error :=
  match planners r !! k with
  | Some _ => (r, Some "planner for the application kind has already been registered")
  | None => ({| planners := <[k := p]> (planners r) |}, None)
  end.
End planner.

(** ** Package [ecs]: the planner *)

(** [type Planner struct {}] *)
Inductive Planner := mkPlanner.

(** The interface [registerer], over the state [R] of its receiver:
    [Register(k, p) error]. *)
Class registerer (R : Type) :=
  reg_Register : model.ApplicationKind -> Planner -> R -> R * option error.

#[global] Instance registry_registerer : registerer (planner.registry Planner) :=
  planner.registry_Register.

(** How a call of a Go function without results ends. *)
Inductive outcome := Returned | Panicked (v : string).

(** [func Register(r registerer)]: the [error] of [r.Register] is dropped. *)
Definition Register {R : Type} `{registerer R} (r : R) : R * outcome :=
  let '(r', _) := reg_Register model.ApplicationKind_ECS mkPlanner r in
  (r', Returned).

(** Modelled from the spec: the numbering of the stages of
    [buildQuickSyncPipeline], "each stage's ordering index is assigned
    sequentially starting from a fixed base"; every stage is stamped with
    [now]. *)
Fixpoint indexStages (base : Z) (now : time.Time) (kinds : list model.Stage)
    : list model.PipelineStage :=
  match kinds with
  | [] => []
  | k :: kinds' =>
      {| model.Name := k; model.Index := base; model.CreatedAt := now |}
        :: indexStages (base + 1) now kinds'
  end.

(** Modelled from the spec: [buildQuickSyncPipeline], a function of this
    package whose file is not among those verified here.  It "always
    includes a primary deploy + shift all traffic stage as the first
    element" and "if autoRollbackEnabled is true, appends a trailing rollback
    stage"; the base of the indices is 0, as in the spec's scenarios
    (deploy stage at index 0, rollback stage at index 1). *)
Definition buildQuickSyncPipeline (autoRollback : bool) (now : time.Time)
    : list model.PipelineStage :=
  indexStages 0 now
    (model.StageDeploy :: if autoRollback then [model.StageRollback] else []).

Section Planner.
Context {PipelineStage TaskDefinition : Type}.
(** [provider.LoadTaskDefinition] and [provider.FindImageTag]. *)
Variable LoadTaskDefinition : string -> string -> result TaskDefinition.
Variable FindImageTag : TaskDefinition -> result string.

Definition determineVersion (appDir serviceDefinitonFile : string)
    : result string :=
  match LoadTaskDefinition appDir serviceDefinitonFile with
  | Err err => Err err
  | Ok taskDefinition => FindImageTag taskDefinition
  end.

(** [func (p *Planner) Plan(ctx, in) (out planner.Output, err error)] *)
Definition Plan (ctx : context.Context) (now : time.Time)
    (input : planner.Input PipelineStage)
    : (planner.Output * option error) * list zap.Entry :=
  let out := planner.zero in
  match deploysource.Get (planner.TargetDSP input) ctx with
  | Err err =>
      ((out, Some ("error while preparing deploy source data (" +:+ err +:+ ")")),
       [])
  | Ok ds =>
      match config.ECSDeploymentSpec_ (deploysource.DeploymentConfig ds) with
      | None =>
          ((out, Some "missing ECSDeploymentSpec in deployment configuration"),
           [])
      | Some cfg =>
          let '(out, logs) :=
            match determineVersion (deploysource.AppDir ds)
                    (config.TaskDefinitionFile (config.Input cfg)) with
            | Ok version => (planner.set_Version version out, [])
            | Err err =>
                (planner.set_Version "unknown" out,
                 [zap.Warn "unable to determine target version" [zap.Error err]])
            end in
          if decide (model.SyncStrategy_ (model.Trigger (planner.Deployment input))
                     = model.SyncStrategy_QUICK_SYNC)
          then
            let out := planner.set_Stages
              (buildQuickSyncPipeline (config.AutoRollback (config.Input cfg)) now)
              out in
            let out := planner.set_Summary
              ("Quick sync to deploy image " +:+ planner.Version out +:+
               " and configure all traffic to it (forced via web)") out in
            ((out, None), logs)
          else if decide (planner.MostRecentSuccessfulCommitHash input = "")
          then
            let out := planner.set_Stages
              (buildQuickSyncPipeline (config.AutoRollback (config.Input cfg)) now)
              out in
            let out := planner.set_Summary
              ("Quick sync to deploy image " +:+ planner.Version out +:+
               " and configure all traffic to it (it seems this is the first deployment)")
              out in
            ((out, None), logs)
          else if match config.Pipeline cfg with
                  | None => true
                  | Some pipeline => (length (config.Stages pipeline) =? 0)%nat
                  end
          then
            let out := planner.set_Stages
              (buildQuickSyncPipeline (config.AutoRollback (config.Input cfg)) now)
              out in
            let out := planner.set_Summary
              ("Quick sync to deploy image " +:+ planner.Version out +:+
               " and configure all traffic to it (pipeline was not configured)")
              out in
            ((out, None), logs)
          else
            let out := planner.set_Stages
              (buildQuickSyncPipeline (config.AutoRollback (config.Input cfg)) now)
              out in
            let out := planner.set_Summary
              ("Quick sync to deploy image " +:+ planner.Version out +:+
               " and configure all traffic to it") out in
            ((out, None), logs)
      end
  end.
End Planner.

Arguments determineVersion {TaskDefinition} _ _ _ _.
Arguments Plan {PipelineStage TaskDefinition} _ _ _ _ _.

(** [in.Deployment.Trigger.SyncStrategy = s], the rest of the input kept. *)
Definition with_SyncStrategy {PipelineStage : Type} (s : model.SyncStrategy)
    (input : planner.Input PipelineStage) : planner.Input PipelineStage :=
  {| planner.Deployment := {| model.Trigger := {| model.SyncStrategy_ := s |} |};
     planner.MostRecentSuccessfulCommitHash :=
       planner.MostRecentSuccessfulCommitHash input;
     planner.TargetDSP := planner.TargetDSP input |}.

(** ** Concrete deployments, used to run the planner *)
Module Sample.
(** A task definition, as the image tag of its primary container if any. *)
Definition TaskDefinition := option string.

Definition LoadTaskDefinition (appDir file : string) : result TaskDefinition :=
  if decide (file = "taskdef.yaml") then Ok (Some "v1.2.3")
  else if decide (file = "untagged.yaml") then Ok None
  else Err "open: no such file or directory".

Definition FindImageTag (td : TaskDefinition) : result string :=
  match td with
  | Some tag => Ok tag
  | None => Err "not found any tag of image"
  end.

Definition spec (file : string) (autoRollback : bool)
    (pipeline : option (list string)) : config.ECSDeploymentSpec string :=
  {| config.Input :=
       {| config.TaskDefinitionFile := file; config.AutoRollback := autoRollback |};
     config.Pipeline :=
       (fun l => {| config.Stages := l |}) <$> pipeline |}.

Definition source (cfg : option (config.ECSDeploymentSpec string))
    : deploysource.DeploySource string :=
  {| deploysource.AppDir := "/tmp/app";
     deploysource.DeploymentConfig := {| config.ECSDeploymentSpec_ := cfg |} |}.

(** A provider that answers [r], and a cancellation error on a cancelled
    context. *)
Definition provider (r : result (deploysource.DeploySource string))
    : deploysource.Provider string :=
  {| deploysource.Get := fun ctx =>
       match context.Err ctx with
       | Some e => Err e
       | None => r
       end |}.

Definition input (s : model.SyncStrategy) (hash : string)
    (r : result (deploysource.DeploySource string)) : planner.Input string :=
  {| planner.Deployment := {| model.Trigger := {| model.SyncStrategy_ := s |} |};
     planner.MostRecentSuccessfulCommitHash := hash;
     planner.TargetDSP := provider r |}.

Definition Plan : time.Time -> planner.Input string -> _ :=
  Plan LoadTaskDefinition FindImageTag context.Background.

Definition deploy (i now : Z) : model.PipelineStage :=
  {| model.Name := model.StageDeploy; model.Index := i; model.CreatedAt := now |}.
Definition rollback (i now : Z) : model.PipelineStage :=
  {| model.Name := model.StageRollback; model.Index := i; model.CreatedAt := now |}.

Definition now : time.Time := 1600000000.
Definition stages : list string := ["stage-0"; "stage-1"].

(** Forced from the web UI, with a pipeline and an earlier deployment. *)
Definition forced : planner.Input string :=
  input model.SyncStrategy_QUICK_SYNC "4f2a9c1"
    (Ok (source (Some (spec "taskdef.yaml" true (Some stages))))).
(** No earlier deployment, and no task definition to read. *)
Definition first : planner.Input string :=
  input (model.SyncStrategy_other 0) ""
    (Ok (source (Some (spec "missing.yaml" false (Some stages))))).
(** An earlier deployment, no pipeline section. *)
Definition unconfigured : planner.Input string :=
  input (model.SyncStrategy_other 0) "4f2a9c1"
    (Ok (source (Some (spec "taskdef.yaml" true None)))).
(** An earlier deployment, a pipeline, and a strategy that is not quick
    sync. *)
Definition piped : planner.Input string :=
  input (model.SyncStrategy_other 2) "4f2a9c1"
    (Ok (source (Some (spec "taskdef.yaml" true (Some stages))))).
(** The provider fails. *)
Definition failing : planner.Input string :=
  input (model.SyncStrategy_other 0) "4f2a9c1" (Err "git clone failed").
(** The deploy source has no ECS section. *)
Definition nospec : planner.Input string :=
  input (model.SyncStrategy_other 0) "4f2a9c1" (Ok (source None)).
End Sample.

(** ** Read by the properties of the planner *)

(** [strings.HasSuffix]: some tail of [s] is [suffix]. *)
Fixpoint HasSuffix (s suffix : string) : bool :=
  String.eqb s suffix ||
  match s with
  | EmptyString => false
  | String _ s' => HasSuffix s' suffix
  end.

(** [cfg.Pipeline == nil || len(cfg.Pipeline.Stages) == 0], the condition of
    the third branch of [Plan]. *)
Definition noPipeline {PipelineStage : Type}
    (cfg : config.ECSDeploymentSpec PipelineStage) : bool :=
  match config.Pipeline cfg with
  | None => true
  | Some pipeline => (length (config.Stages pipeline) =? 0)%nat
  end.

(** ** The Terraform example [examples/terraform/wait-approval/main.tf] *)
Module wait_approval.
(** [terraform { backend "gcs" { ... } }] *)
Record gcs := { bucket : string; prefix : string; credentials : string }.

Definition backend : gcs :=
  {| bucket := "pipecd-terraform-examples";
     prefix := "tfstates/waitapproval";
     credentials := ".credentials/service-account.json" |}.

Module google_storage_bucket_object.
Record t := { name : string; bucket : string; content : string }.
End google_storage_bucket_object.

(** [resource "google_storage_bucket_object" "object"], in the workspace
    [workspace] ([terraform.workspace]) and for the value [content] of
    [var.content]. *)
Definition object (workspace content : string) : google_storage_bucket_object.t :=
  {| google_storage_bucket_object.name :=
       "examples/waitapproval/" +:+ workspace +:+ ".txt";
     google_storage_bucket_object.bucket := "pipecd-terraform-examples";
     google_storage_bucket_object.content := content |}.
End wait_approval.

(** ** Substrings *)

Lemma HasPrefix_app (sub post : string) : HasPrefix (sub +:+ post) sub = true.
Proof.
  induction sub as [|a sub IH]; simpl; [done|].
  by rewrite Ascii.eqb_refl.
Qed.

Lemma HasPrefix_inv (s sub : string) :
  HasPrefix s sub = true -> exists post, s = sub +:+ post.
Proof.
  revert s; induction sub as [|a sub IH]; intros s H; simpl in *.
  - by exists s.
  - destruct s as [|b s]; [done|].
    destruct (Ascii.eqb a b) eqn:E; [|done].
    apply Ascii.eqb_eq in E as ->.
    destruct (IH _ H) as [post ->]. by exists post.
Qed.

Lemma Contains_here (s sub : string) :
  HasPrefix s sub = true -> Contains s sub = true.
Proof. intros H. destruct s; simpl in *; by rewrite H. Qed.

Lemma Contains_app_r (pre s sub : string) :
  Contains s sub = true -> Contains (pre +:+ s) sub = true.
Proof.
  intros H. induction pre as [|a pre IH]; simpl; [done|].
  rewrite IH. apply orb_true_r.
Qed.

(** [Contains] is the usual notion of a substring. *)
Lemma Contains_spec (s sub : string) :
  Contains s sub = true <-> exists pre post, s = pre +:+ sub +:+ post.
Proof.
  split.
  - induction s as [|a s IH]; simpl; intros H.
    + rewrite orb_false_r in H.
      destruct (HasPrefix_inv _ _ H) as [post Hp]. by exists "", post.
    + apply orb_true_iff in H as [H|H].
      * destruct (HasPrefix_inv _ _ H) as [post Hp]. by exists "", post.
      * destruct (IH H) as (pre & post & ->). by exists (String a pre), post.
  - intros (pre & post & ->).
    apply Contains_app_r, Contains_here, HasPrefix_app.
Qed.

(** ** The quick-sync stage builder *)

Lemma indexStages_lookup (now : time.Time) (kinds : list model.Stage) :
  forall (base : Z) (i : nat) (st : model.PipelineStage),
    indexStages base now kinds !! i = Some st ->
    model.Index st = base + Z.of_nat i /\
    kinds !! i = Some (model.Name st) /\
    model.CreatedAt st = now.
Proof.
  induction kinds as [|k kinds IH]; intros base i st H; [done|].
  destruct i as [|i]; simpl in H.
  - injection H as <-. simpl. split; [lia|done].
  - destruct (IH _ _ _ H) as (Hi & Hk & Hc).
    split; [lia|done].
Qed.



Lemma buildQuickSyncPipeline_index (autoRollback : bool) (now : time.Time)
    (i : nat) (st : model.PipelineStage) :
  buildQuickSyncPipeline autoRollback now !! i = Some st ->
  model.Index st = Z.of_nat i.
Proof.
  intros H. apply indexStages_lookup in H as (H & _). lia.
Qed.

Lemma buildQuickSyncPipeline_head (autoRollback : bool) (now : time.Time) :
  head (buildQuickSyncPipeline autoRollback now)
  = Some {| model.Name := model.StageDeploy; model.Index := 0;
            model.CreatedAt := now |}.
Proof. reflexivity. Qed.

Lemma buildQuickSyncPipeline_last (autoRollback : bool) (now : time.Time) :
  model.Name <$> last (buildQuickSyncPipeline autoRollback now)
  = Some (if autoRollback then model.StageRollback else model.StageDeploy).
Proof. by destruct autoRollback. Qed.

Lemma buildQuickSyncPipeline_no_rollback (now : time.Time) :
  Forall (fun st => model.Name st <> model.StageRollback)
    (buildQuickSyncPipeline false now).
Proof. by repeat constructor. Qed.

(** ** The planner *)

Section PlannerFacts.
Context {PipelineStage TaskDefinition : Type}.
Variable LoadTaskDefinition : string -> string -> result TaskDefinition.
Variable FindImageTag : TaskDefinition -> result string.

Local Abbreviation plan := (Plan LoadTaskDefinition FindImageTag).
Local Abbreviation version :=
  (determineVersion LoadTaskDefinition FindImageTag).
Local Abbreviation strategy input :=
  (model.SyncStrategy_ (model.Trigger (planner.Deployment input))).
Local Abbreviation autoRollback cfg :=
  (config.AutoRollback (config.Input cfg)).

Implicit Types (ctx : context.Context) (now : time.Time).
Implicit Types (input : planner.Input PipelineStage).
Implicit Types (ds : deploysource.DeploySource PipelineStage).
Implicit Types (cfg : config.ECSDeploymentSpec PipelineStage).
Implicit Types (out : planner.Output) (logs : list zap.Entry).

(** [determineVersion] fails when the task definition cannot be loaded or
    has no image tag, with the error of the step that failed. *)
Lemma determineVersion_Err (appDir file : string) (err : error) :
  version appDir file = Err err <->
  LoadTaskDefinition appDir file = Err err \/
  exists td, LoadTaskDefinition appDir file = Ok td /\ FindImageTag td = Err err.
Proof.
  unfold determineVersion.
  destruct (LoadTaskDefinition appDir file) as [td|e]; split.
  - intros H. right. by exists td.
  - intros [H|(td' & [= <-] & H)]; done.
  - intros [= ->]. by left.
  - intros [[= ->]|(td' & H & _)]; done.
Qed.

(** A call that returns no error got its deploy source and found the ECS
    section in it, and its stages are the quick-sync ones. *)
Lemma Plan_Ok_inv ctx now input out logs :
  plan ctx now input = ((out, None), logs) ->
  exists ds cfg,
    deploysource.Get (planner.TargetDSP input) ctx = Ok ds /\
    config.ECSDeploymentSpec_ (deploysource.DeploymentConfig ds) = Some cfg /\
    planner.Stages out = buildQuickSyncPipeline (autoRollback cfg) now.
Proof.
  unfold Plan.
  destruct (deploysource.Get _ ctx) as [ds|e] eqn:Hds; [|intros [=]].
  destruct (config.ECSDeploymentSpec_ _) as [cfg|] eqn:Hcfg; [|intros [=]].
  intros H. exists ds, cfg. split; [done|]. split; [done|].
  destruct (version _ _);
    repeat case_decide; repeat case_match; by simplify_eq.
Qed.

(** With a deploy source and an ECS section, [Plan] returns no error. *)
Lemma Plan_Ok ctx now input ds cfg :
  deploysource.Get (planner.TargetDSP input) ctx = Ok ds ->
  config.ECSDeploymentSpec_ (deploysource.DeploymentConfig ds) = Some cfg ->
  exists out logs,
    plan ctx now input = ((out, None), logs) /\
    planner.Stages out = buildQuickSyncPipeline (autoRollback cfg) now.
Proof.
  intros Hds Hcfg. unfold Plan. rewrite Hds, Hcfg.
  destruct (version _ _);
    repeat case_decide; repeat case_match;
    (eexists _, _; split; reflexivity).
Qed.
Lemma summary_Contains (v reason sub : string) :
  Contains reason sub = true ->
  Contains ("Quick sync to deploy image " +:+ v +:+ reason) sub = true.
Proof. intros H. by apply Contains_app_r, Contains_app_r. Qed.

Local Ltac enter Hds Hcfg := unfold Plan; rewrite Hds, Hcfg.
Local Ltac branch := repeat (case_decide; try done).

(** C1.  A trigger that asks for quick sync wins over everything that
    follows: once the deploy source is there and carries the ECS section,
    [Plan] returns the quick-sync stages and the summary that ends in
    "(forced via web)", whatever the pipeline section and the last
    successful commit are. *)
Theorem Plan_forced_quick_sync ctx now input ds cfg :
  strategy input = model.SyncStrategy_QUICK_SYNC ->
  deploysource.Get (planner.TargetDSP input) ctx = Ok ds ->
  config.ECSDeploymentSpec_ (deploysource.DeploymentConfig ds) = Some cfg ->
  exists out logs,
    plan ctx now input = ((out, None), logs) /\
    planner.Stages out = buildQuickSyncPipeline (autoRollback cfg) now /\
    planner.Summary out =
      "Quick sync to deploy image " +:+ planner.Version out +:+
      " and configure all traffic to it (forced via web)" /\
    Contains (planner.Summary out) "forced via web" = true.
Proof.
  intros Hs Hds Hcfg. enter Hds Hcfg.
  destruct (version _ _) as [v|e]; branch; eexists _, _;
    (split; [reflexivity|]); (split; [reflexivity|]);
    (split; [reflexivity|]); by apply summary_Contains.
Qed.

(** C2.  With no last successful commit, and a trigger that does not ask
    for quick sync, a [Plan] that returns no error returns the quick-sync
    stages and the summary of a first deployment, whatever the pipeline
    section is. *)
Theorem Plan_first_deployment ctx now input out logs :
  strategy input <> model.SyncStrategy_QUICK_SYNC ->
  planner.MostRecentSuccessfulCommitHash input = "" ->
  plan ctx now input = ((out, None), logs) ->
  (exists ds cfg,
     deploysource.Get (planner.TargetDSP input) ctx = Ok ds /\
     config.ECSDeploymentSpec_ (deploysource.DeploymentConfig ds) = Some cfg /\
     planner.Stages out = buildQuickSyncPipeline (autoRollback cfg) now) /\
  planner.Summary out =
    "Quick sync to deploy image " +:+ planner.Version out +:+
    " and configure all traffic to it (it seems this is the first deployment)" /\
  Contains (planner.Summary out) "first deployment" = true.
Proof.
  intros Hs Hhash H. split; [by eapply Plan_Ok_inv|].
  destruct (Plan_Ok_inv _ _ _ _ _ H) as (ds & cfg & Hds & Hcfg & _).
  revert H. enter Hds Hcfg.
  destruct (version _ _) as [v|e]; branch; intros [= <- <-];
    (split; [reflexivity|]); by apply summary_Contains.
Qed.

(** C3.  With a last successful commit, a trigger that does not ask for
    quick sync, and a pipeline section that is absent or has no stage, a
    [Plan] that returns no error returns the quick-sync stages and the
    summary saying that the pipeline was not configured. *)
Theorem Plan_pipeline_not_configured ctx now input ds cfg out logs :
  strategy input <> model.SyncStrategy_QUICK_SYNC ->
  planner.MostRecentSuccessfulCommitHash input <> "" ->
  deploysource.Get (planner.TargetDSP input) ctx = Ok ds ->
  config.ECSDeploymentSpec_ (deploysource.DeploymentConfig ds) = Some cfg ->
  (config.Pipeline cfg = None \/
   exists pipeline,
     config.Pipeline cfg = Some pipeline /\ config.Stages pipeline = []) ->
  plan ctx now input = ((out, None), logs) ->
  planner.Stages out = buildQuickSyncPipeline (autoRollback cfg) now /\
  planner.Summary out =
    "Quick sync to deploy image " +:+ planner.Version out +:+
    " and configure all traffic to it (pipeline was not configured)" /\
  Contains (planner.Summary out) "pipeline was not configured" = true.
Proof.
  intros Hs Hhash Hds Hcfg Hp. enter Hds Hcfg.
  assert (match config.Pipeline cfg with
          | None => true
          | Some pipeline => (length (config.Stages pipeline) =? 0)%nat
          end = true) as Hempty.
  { destruct Hp as [->|(pipeline & -> & ->)]; reflexivity. }
  destruct (version _ _) as [v|e]; branch; rewrite Hempty;
    intros [= <- <-];
    (split; [reflexivity|]); (split; [reflexivity|]);
    by apply summary_Contains.
Qed.

(** C4.  When the version cannot be determined, planning goes on: [Plan]
    returns no error, the version is "unknown", and one entry of level
    Warn, carrying the error, is logged. *)
Theorem Plan_version_unknown ctx now input ds cfg err :
  deploysource.Get (planner.TargetDSP input) ctx = Ok ds ->
  config.ECSDeploymentSpec_ (deploysource.DeploymentConfig ds) = Some cfg ->
  version (deploysource.AppDir ds)
    (config.TaskDefinitionFile (config.Input cfg)) = Err err ->
  exists out,
    plan ctx now input
    = ((out, None),
       [zap.Warn "unable to determine target version" [zap.Error err]]) /\
    planner.Version out = "unknown" /\
    zap.Level_ (zap.Warn "unable to determine target version" [zap.Error err])
    = zap.WarnLevel.
Proof.
  intros Hds Hcfg Hv. enter Hds Hcfg. rewrite Hv.
  repeat case_decide; repeat case_match;
    (eexists; split; [reflexivity|done]).
Qed.

(** C5.  When the deploy-source provider fails, [Plan] returns an error
    whose message carries the provider's, nothing is logged, and the output
    is the zero value: no stage, no version, no summary. *)
Theorem Plan_deploy_source_error ctx now input err :
  deploysource.Get (planner.TargetDSP input) ctx = Err err ->
  exists out msg,
    plan ctx now input = ((out, Some msg), []) /\
    msg = "error while preparing deploy source data (" +:+ err +:+ ")" /\
    Contains msg err = true /\
    planner.Stages out = [] /\
    planner.Version out = "" /\
    planner.Summary out = "".
Proof.
  intros Hds. unfold Plan. rewrite Hds. eexists _, _.
  split; [reflexivity|]. split; [reflexivity|]. split; [|done].
  apply Contains_app_r, Contains_here, HasPrefix_app.
Qed.

(** C6.  When the deploy source carries no ECS section, [Plan] returns an
    error and the zero output; no configuration is made up. *)
Theorem Plan_missing_spec ctx now input ds :
  deploysource.Get (planner.TargetDSP input) ctx = Ok ds ->
  config.ECSDeploymentSpec_ (deploysource.DeploymentConfig ds) = None ->
  plan ctx now input
  = ((planner.zero,
      Some "missing ECSDeploymentSpec in deployment configuration"), []) /\
  planner.Stages planner.zero = [] /\
  planner.Version planner.zero = "" /\
  planner.Summary planner.zero = "".
Proof. intros Hds Hcfg. enter Hds Hcfg. done. Qed.

(** C7.  In the stages of a [Plan] that returns no error, the first stage
    is the deploy stage, so there is one; with auto-rollback on the last
    stage is the rollback stage, with auto-rollback off no stage is. *)
Theorem Plan_rollback_stage ctx now input out logs :
  plan ctx now input = ((out, None), logs) ->
  exists ds cfg,
    deploysource.Get (planner.TargetDSP input) ctx = Ok ds /\
    config.ECSDeploymentSpec_ (deploysource.DeploymentConfig ds) = Some cfg /\
    model.Name <$> head (planner.Stages out) = Some model.StageDeploy /\
    planner.Stages out <> [] /\
    (autoRollback cfg = true ->
     model.Name <$> last (planner.Stages out) = Some model.StageRollback) /\
    (autoRollback cfg = false ->
     Forall (fun st => model.Name st <> model.StageRollback)
       (planner.Stages out)).
Proof.
  intros H. destruct (Plan_Ok_inv _ _ _ _ _ H) as (ds & cfg & Hds & Hcfg & ->).
  exists ds, cfg. split; [done|]. split; [done|].
  split; [by rewrite buildQuickSyncPipeline_head|]. split; [done|].
  split; intros ->.
  - apply buildQuickSyncPipeline_last.
  - apply buildQuickSyncPipeline_no_rollback.
Qed.

(** C8.  In the stages of a [Plan] that returns no error, whichever branch
    built them, the stage at position [i] has index [i]: the indices start
    at 0, have no gap, and grow strictly. *)
Theorem Plan_stage_indices ctx now input out logs :
  plan ctx now input = ((out, None), logs) ->
  planner.Stages out <> [] /\
  (forall (i : nat) (st : model.PipelineStage),
     planner.Stages out !! i = Some st -> model.Index st = Z.of_nat i) /\
  (forall (i j : nat) (si sj : model.PipelineStage),
     (i < j)%nat ->
     planner.Stages out !! i = Some si ->
     planner.Stages out !! j = Some sj ->
     model.Index si < model.Index sj).
Proof.
  intros H. destruct (Plan_Ok_inv _ _ _ _ _ H) as (ds & cfg & _ & _ & ->).
  split; [done|]. split.
  - apply buildQuickSyncPipeline_index.
  - intros i j si sj Hij Hi Hj.
    apply buildQuickSyncPipeline_index in Hi, Hj. lia.
Qed.

(** C10.  A strategy other than quick sync is not looked at: the later
    checks decide the summary, the stages are the quick-sync ones, and the
    result is the same for every such strategy; when the later checks fall
    through too, the summary has no reason clause. *)
Theorem Plan_other_strategy ctx now input ds cfg :
  strategy input <> model.SyncStrategy_QUICK_SYNC ->
  deploysource.Get (planner.TargetDSP input) ctx = Ok ds ->
  config.ECSDeploymentSpec_ (deploysource.DeploymentConfig ds) = Some cfg ->
  exists out logs,
    plan ctx now input = ((out, None), logs) /\
    planner.Stages out = buildQuickSyncPipeline (autoRollback cfg) now /\
    planner.Stages out
    = planner.Stages
        (plan ctx now
           (with_SyncStrategy model.SyncStrategy_QUICK_SYNC input)).1.1 /\
    (planner.MostRecentSuccessfulCommitHash input = "" ->
     planner.Summary out =
       "Quick sync to deploy image " +:+ planner.Version out +:+
       " and configure all traffic to it (it seems this is the first deployment)") /\
    (planner.MostRecentSuccessfulCommitHash input <> "" ->
     (config.Pipeline cfg = None \/
      exists pipeline,
        config.Pipeline cfg = Some pipeline /\ config.Stages pipeline = []) ->
     planner.Summary out =
       "Quick sync to deploy image " +:+ planner.Version out +:+
       " and configure all traffic to it (pipeline was not configured)") /\
    (planner.MostRecentSuccessfulCommitHash input <> "" ->
     (exists pipeline,
        config.Pipeline cfg = Some pipeline /\ config.Stages pipeline <> []) ->
     planner.Summary out =
       "Quick sync to deploy image " +:+ planner.Version out +:+
       " and configure all traffic to it") /\
    (forall s : model.SyncStrategy,
       s <> model.SyncStrategy_QUICK_SYNC ->
       plan ctx now (with_SyncStrategy s input) = plan ctx now input).
Proof.
  intros Hs Hds Hcfg.
  destruct (Plan_Ok ctx now input ds cfg Hds Hcfg)
    as (out & logs & H & Hst).
  exists out, logs. split; [done|]. split; [done|]. split.
  { destruct (Plan_Ok ctx now
                (with_SyncStrategy model.SyncStrategy_QUICK_SYNC input)
                ds cfg Hds Hcfg) as (out' & logs' & -> & Hst').
    simpl. congruence. }
  split; [|split; [|split]].
  - intros Hhash. revert H. enter Hds Hcfg.
    destruct (version _ _); branch; by intros [= <- <-].
  - intros Hhash Hp. revert H. enter Hds Hcfg.
    destruct (version _ _); branch;
      destruct Hp as [->|(pipeline & -> & ->)]; by intros [= <- <-].
  - intros Hhash (pipeline & Hp & Hne). revert H. enter Hds Hcfg.
    rewrite Hp.
    destruct (config.Stages pipeline) as [|x l] eqn:E; [done|].
    destruct (version _ _); branch; by intros [= <- <-].
  - intros s Hne. unfold Plan, with_SyncStrategy. simpl.
    rewrite Hds, Hcfg.
    destruct (version _ _); branch; done.
Qed.
End PlannerFacts.

(** ** Registration *)

(** C9, as the code has it.  [Register] hands the planner to the registerer
    under [ApplicationKind_ECS] and returns, whatever the registerer
    answers.  On the registry: afterwards the ECS kind has its planner and
    no other kind has changed; a registry that had one already is left as it
    was, and registering again returns as silently as the first time. *)
Theorem Register_drops_error (r : planner.registry Planner) :
  Register r
  = ((reg_Register model.ApplicationKind_ECS mkPlanner r).1, Returned) /\
  planner.planners (Register r).1 !! model.ApplicationKind_ECS
  = Some mkPlanner /\
  (forall k : model.ApplicationKind,
     k <> model.ApplicationKind_ECS ->
     planner.planners (Register r).1 !! k = planner.planners r !! k) /\
  (is_Some (planner.planners r !! model.ApplicationKind_ECS) ->
   (reg_Register model.ApplicationKind_ECS mkPlanner r).2 <> None /\
   Register r = (r, Returned)) /\
  Register (Register r).1 = ((Register r).1, Returned).
Proof.
  unfold Register, reg_Register, registry_registerer, planner.registry_Register.
  destruct (planner.planners r !! model.ApplicationKind_ECS) as [[]|] eqn:E;
    simpl.
  - rewrite E. split; [done|]. split; [done|]. split; [done|]. by split.
  - rewrite lookup_insert_eq. split; [done|]. split; [done|]. split.
    + intros k Hk. by rewrite lookup_insert_ne.
    + split; [by intros []|done].
Qed.

(** C9, as it is claimed, fails: on the registry that already has the ECS
    planner the registerer answers an error, and [Register] returns as if
    nothing had happened, the registry unchanged. *)
Lemma Register_twice_is_silent :
  let r1 := (Register (planner.registry_empty (P := Planner))).1 in
  planner.planners r1 !! model.ApplicationKind_ECS = Some mkPlanner /\
  (reg_Register model.ApplicationKind_ECS mkPlanner r1).2
  = Some "planner for the application kind has already been registered" /\
  Register r1 = (r1, Returned) /\
  ~ (forall r : planner.registry Planner,
       is_Some (planner.planners r !! model.ApplicationKind_ECS) ->
       (Register r).2 <> Returned).
Proof.
  split; [reflexivity|]. split; [reflexivity|]. split; [reflexivity|].
  intros H.
  apply (H (Register (planner.registry_empty (P := Planner))).1); [|reflexivity].
  by eexists.
Qed.

(** ** The planner at work *)

(** The two scenarios of the specification. *)
Example Plan_scenario_forced :
  Sample.Plan Sample.now Sample.forced
  = (({| planner.Version := "v1.2.3";
         planner.Stages :=
           [Sample.deploy 0 Sample.now; Sample.rollback 1 Sample.now];
         planner.Summary :=
           "Quick sync to deploy image v1.2.3 and configure all traffic to it (forced via web)" |},
      None), []).
Proof. reflexivity. Qed.

Example Plan_scenario_first :
  Sample.Plan Sample.now Sample.first
  = (({| planner.Version := "unknown";
         planner.Stages := [Sample.deploy 0 Sample.now];
         planner.Summary :=
           "Quick sync to deploy image unknown and configure all traffic to it (it seems this is the first deployment)" |},
      None),
     [zap.Warn "unable to determine target version"
        [zap.Error "open: no such file or directory"]]).
Proof. reflexivity. Qed.

Lemma Plan_forced_quick_sync_witness :
  model.SyncStrategy_ (model.Trigger (planner.Deployment Sample.forced))
  = model.SyncStrategy_QUICK_SYNC /\
  exists out logs,
    Sample.Plan Sample.now Sample.forced = ((out, None), logs) /\
    planner.Stages out = buildQuickSyncPipeline true Sample.now /\
    Contains (planner.Summary out) "forced via web" = true.
Proof.
  split; [reflexivity|].
  destruct (Plan_forced_quick_sync Sample.LoadTaskDefinition Sample.FindImageTag
              context.Background Sample.now Sample.forced _ _
              eq_refl eq_refl eq_refl)
    as (out & logs & H & Hst & _ & Hc).
  by exists out, logs.
Defined.

Lemma Plan_first_deployment_witness :
  planner.MostRecentSuccessfulCommitHash Sample.first = "" /\
  Contains (planner.Summary (Sample.Plan Sample.now Sample.first).1.1)
    "first deployment" = true.
Proof.
  split; [reflexivity|].
  apply (Plan_first_deployment Sample.LoadTaskDefinition Sample.FindImageTag
           context.Background Sample.now Sample.first
           (Sample.Plan Sample.now Sample.first).1.1
           (Sample.Plan Sample.now Sample.first).2);
    [discriminate|reflexivity|reflexivity].
Defined.

Lemma Plan_pipeline_not_configured_witness :
  planner.MostRecentSuccessfulCommitHash Sample.unconfigured <> "" /\
  planner.Stages (Sample.Plan Sample.now Sample.unconfigured).1.1
  = [Sample.deploy 0 Sample.now; Sample.rollback 1 Sample.now] /\
  Contains (planner.Summary (Sample.Plan Sample.now Sample.unconfigured).1.1)
    "pipeline was not configured" = true.
Proof.
  split; [discriminate|].
  destruct (Plan_pipeline_not_configured
              Sample.LoadTaskDefinition Sample.FindImageTag
              context.Background Sample.now Sample.unconfigured _ _
              (Sample.Plan Sample.now Sample.unconfigured).1.1
              (Sample.Plan Sample.now Sample.unconfigured).2
              ltac:(discriminate) ltac:(discriminate) eq_refl eq_refl
              (or_introl eq_refl) eq_refl)
    as (Hst & _ & Hc).
  split; [exact Hst|exact Hc].
Defined.

Lemma Plan_version_unknown_witness :
  determineVersion Sample.LoadTaskDefinition Sample.FindImageTag
    "/tmp/app" "missing.yaml" = Err "open: no such file or directory" /\
  exists out,
    Sample.Plan Sample.now Sample.first
    = ((out, None),
       [zap.Warn "unable to determine target version"
          [zap.Error "open: no such file or directory"]]) /\
    planner.Version out = "unknown".
Proof.
  split; [reflexivity|].
  destruct (Plan_version_unknown Sample.LoadTaskDefinition Sample.FindImageTag
              context.Background Sample.now Sample.first _ _
              "open: no such file or directory" eq_refl eq_refl eq_refl)
    as (out & H & Hv & _).
  by exists out.
Defined.

Lemma Plan_deploy_source_error_witness :
  deploysource.Get (planner.TargetDSP Sample.failing) context.Background
  = Err "git clone failed" /\
  exists out,
    Sample.Plan Sample.now Sample.failing
    = ((out,
        Some "error while preparing deploy source data (git clone failed)"),
       []) /\
    planner.Stages out = [].
Proof.
  split; [reflexivity|].
  destruct (Plan_deploy_source_error
              Sample.LoadTaskDefinition Sample.FindImageTag
              context.Background Sample.now Sample.failing
              "git clone failed" eq_refl)
    as (out & msg & H & -> & _ & Hst & _).
  by exists out.
Defined.

Lemma Plan_missing_spec_witness :
  config.ECSDeploymentSpec_ (deploysource.DeploymentConfig (Sample.source None))
  = None /\
  Sample.Plan Sample.now Sample.nospec
  = ((planner.zero,
      Some "missing ECSDeploymentSpec in deployment configuration"), []).
Proof.
  split; [reflexivity|].
  apply (Plan_missing_spec Sample.LoadTaskDefinition Sample.FindImageTag
           context.Background Sample.now Sample.nospec (Sample.source None)
           eq_refl eq_refl).
Defined.

Lemma Plan_rollback_stage_witness :
  model.Name <$> last (planner.Stages (Sample.Plan Sample.now Sample.forced).1.1)
  = Some model.StageRollback /\
  Forall (fun st => model.Name st <> model.StageRollback)
    (planner.Stages (Sample.Plan Sample.now Sample.first).1.1).
Proof.
  split.
  - destruct (Plan_rollback_stage Sample.LoadTaskDefinition Sample.FindImageTag
                context.Background Sample.now Sample.forced
                (Sample.Plan Sample.now Sample.forced).1.1
                (Sample.Plan Sample.now Sample.forced).2 eq_refl)
      as (ds & cfg & Hds & Hcfg & _ & _ & Hon & _).
    apply Hon. injection Hds as <-. by injection Hcfg as <-.
  - destruct (Plan_rollback_stage Sample.LoadTaskDefinition Sample.FindImageTag
                context.Background Sample.now Sample.first
                (Sample.Plan Sample.now Sample.first).1.1
                (Sample.Plan Sample.now Sample.first).2 eq_refl)
      as (ds & cfg & Hds & Hcfg & _ & _ & _ & Hoff).
    apply Hoff. injection Hds as <-. by injection Hcfg as <-.
Defined.

Lemma Plan_stage_indices_witness :
  Sample.Plan Sample.now Sample.piped
  = (((Sample.Plan Sample.now Sample.piped).1.1, None), []) /\
  exists s0 s1 : model.PipelineStage,
    planner.Stages (Sample.Plan Sample.now Sample.piped).1.1 = [s0; s1] /\
    model.Index s0 = 0 /\ model.Index s1 = 1 /\
    model.Index s0 < model.Index s1.
Proof.
  split; [reflexivity|].
  destruct (Plan_stage_indices Sample.LoadTaskDefinition Sample.FindImageTag
              context.Background Sample.now Sample.piped
              (Sample.Plan Sample.now Sample.piped).1.1
              (Sample.Plan Sample.now Sample.piped).2 eq_refl)
    as (_ & Hidx & Hlt).
  eexists _, _. split; [reflexivity|].
  split; [exact (Hidx 0%nat _ eq_refl)|].
  split; [exact (Hidx 1%nat _ eq_refl)|].
  exact (Hlt 0%nat 1%nat _ _ (le_n 1) eq_refl eq_refl).
Defined.

Lemma Plan_other_strategy_witness :
  model.SyncStrategy_ (model.Trigger (planner.Deployment Sample.piped))
  <> model.SyncStrategy_QUICK_SYNC /\
  exists out,
    Sample.Plan Sample.now Sample.piped = ((out, None), []) /\
    planner.Stages out
    = [Sample.deploy 0 Sample.now; Sample.rollback 1 Sample.now] /\
    planner.Summary out
    = "Quick sync to deploy image v1.2.3 and configure all traffic to it".
Proof.
  split; [discriminate|].
  destruct (Plan_other_strategy Sample.LoadTaskDefinition Sample.FindImageTag
              context.Background Sample.now Sample.piped _ _
              ltac:(discriminate) eq_refl eq_refl)
    as (out & logs & H & Hst & _ & _ & _ & Hsum & _).
  injection H as <- <-. by eexists.
Defined.

(** ** Suffixes *)

Lemma length_app (a b : string) :
  String.length (a +:+ b) = (String.length a + String.length b)%nat.
Proof. induction a as [|c a IH]; simpl; [done|]. by rewrite IH. Qed.

Lemma app_assoc_string (a b c : string) : (a +:+ b) +:+ c = a +:+ b +:+ c.
Proof.
  induction a as [|x a IH]; [done|].
  change (String x ((a +:+ b) +:+ c) = String x (a +:+ b +:+ c)).
  by f_equal.
Qed.

Lemma app_cons_string (x : Ascii.ascii) (a t : string) :
  String x a +:+ t = String x (a +:+ t).
Proof. reflexivity. Qed.

Lemma app_inv_tail_string (t a a' : string) : a +:+ t = a' +:+ t -> a = a'.
Proof.
  revert a'; induction a as [|x a IH]; intros [|y a'] H; [done|..].
  - apply (f_equal String.length) in H.
    rewrite !length_app in H. simpl in H. lia.
  - apply (f_equal String.length) in H.
    rewrite !length_app in H. simpl in H. lia.
  - rewrite !app_cons_string in H. injection H as -> H. by rewrite (IH _ H).
Qed.

Lemma HasSuffix_cons (x : Ascii.ascii) (s suffix : string) :
  HasSuffix (String x s) suffix
  = String.eqb (String x s) suffix || HasSuffix s suffix.
Proof. reflexivity. Qed.

(** [HasSuffix] is the usual notion of a suffix. *)
Lemma HasSuffix_spec (s suffix : string) :
  HasSuffix s suffix = true <-> exists pre, s = pre +:+ suffix.
Proof.
  split.
  - induction s as [|x s IH].
    + destruct suffix; [by exists ""|done].
    + rewrite HasSuffix_cons. intros [H%String.eqb_eq|H]%orb_true_iff.
      * by exists "".
      * destruct (IH H) as [pre ->]. by exists (String x pre).
  - intros [pre ->]. induction pre as [|x pre IH].
    + destruct suffix; simpl; rewrite ?String.eqb_refl, ?Ascii.eqb_refl; done.
    + change (String x pre +:+ suffix) with (String x (pre +:+ suffix)).
      rewrite HasSuffix_cons, IH. apply orb_true_r.
Qed.

(** A suffix no longer than [s] is looked for in [s] alone. *)
Lemma HasSuffix_app_short (pre s suffix : string) :
  (String.length suffix <= String.length s)%nat ->
  HasSuffix (pre +:+ s) suffix = HasSuffix s suffix.
Proof.
  intros Hlen. induction pre as [|x pre IH]; [done|].
  change (String x pre +:+ s) with (String x (pre +:+ s)).
  rewrite HasSuffix_cons, IH.
  replace (String.eqb (String x (pre +:+ s)) suffix) with false; [done|].
  symmetry. apply String.eqb_neq. intros E.
  apply (f_equal String.length) in E. simpl in E.
  rewrite length_app in E. lia.
Qed.

(** What ends in [a +:+ b] ends in [b]. *)
Lemma HasSuffix_tail (s a b : string) :
  HasSuffix s (a +:+ b) = true -> HasSuffix s b = true.
Proof.
  rewrite !HasSuffix_spec. intros [pre ->].
  exists (pre +:+ a). by rewrite app_assoc_string.
Qed.

(** ** More on the planner *)

Section PlannerMore.
Context {PipelineStage TaskDefinition : Type}.
Variable LoadTaskDefinition : string -> string -> result TaskDefinition.
Variable FindImageTag : TaskDefinition -> result string.

Local Abbreviation plan := (Plan LoadTaskDefinition FindImageTag).
Local Abbreviation version :=
  (determineVersion LoadTaskDefinition FindImageTag).
Local Abbreviation strategy input :=
  (model.SyncStrategy_ (model.Trigger (planner.Deployment input))).
Local Abbreviation autoRollback cfg :=
  (config.AutoRollback (config.Input cfg)).
Local Abbreviation head_of v :=
  ("Quick sync to deploy image " +:+ v +:+ " and configure all traffic to it").

Implicit Types (ctx : context.Context) (now : time.Time).
Implicit Types (input : planner.Input PipelineStage).
Implicit Types (ds : deploysource.DeploySource PipelineStage).
Implicit Types (cfg : config.ECSDeploymentSpec PipelineStage).
Implicit Types (out : planner.Output) (logs : list zap.Entry).

Local Ltac enter Hds Hcfg := unfold Plan; rewrite Hds, Hcfg.
Local Ltac branch := repeat (case_decide; try done).

(** The four summaries, by the reason clause they end in. *)
Lemma Plan_summary ctx now input ds cfg out logs :
  deploysource.Get (planner.TargetDSP input) ctx = Ok ds ->
  config.ECSDeploymentSpec_ (deploysource.DeploymentConfig ds) = Some cfg ->
  plan ctx now input = ((out, None), logs) ->
  planner.Summary out
  = head_of (planner.Version out) +:+
    (if decide (strategy input = model.SyncStrategy_QUICK_SYNC)
     then " (forced via web)"
     else if decide (planner.MostRecentSuccessfulCommitHash input = "")
     then " (it seems this is the first deployment)"
     else if noPipeline cfg then " (pipeline was not configured)"
     else "").
Proof.
  intros Hds Hcfg. enter Hds Hcfg. unfold noPipeline.
  rewrite !app_assoc_string.
  destruct (version _ _); repeat case_decide; repeat case_match;
    by intros [= <- <-].
Qed.

Lemma head_of_HasSuffix (v reason suffix : string) :
  (String.length suffix
   <= String.length (" and configure all traffic to it" +:+ reason))%nat ->
  HasSuffix (head_of v +:+ reason) suffix
  = HasSuffix (" and configure all traffic to it" +:+ reason) suffix.
Proof.
  intros Hlen. rewrite !app_assoc_string.
  rewrite HasSuffix_app_short; [|by rewrite length_app; lia].
  by rewrite HasSuffix_app_short.
Qed.

(** The summary without a reason clause does not end in a bracket. *)
Lemma head_of_no_clause (v clause : string) :
  HasSuffix (head_of v +:+ "") (clause +:+ ")") = false.
Proof.
  destruct (HasSuffix _ _) eqn:E; [|done].
  apply HasSuffix_tail in E.
  rewrite head_of_HasSuffix in E by (vm_compute; lia).
  done.
Qed.

(** X1.  When the task definition loads and carries an image tag, the
    version of the plan is that tag, nothing is logged, and the summary
    names the tag. *)
Theorem Plan_version_resolved ctx now input ds cfg td v :
  deploysource.Get (planner.TargetDSP input) ctx = Ok ds ->
  config.ECSDeploymentSpec_ (deploysource.DeploymentConfig ds) = Some cfg ->
  LoadTaskDefinition (deploysource.AppDir ds)
    (config.TaskDefinitionFile (config.Input cfg)) = Ok td ->
  FindImageTag td = Ok v ->
  exists out,
    plan ctx now input = ((out, None), []) /\
    planner.Version out = v /\
    Contains (planner.Summary out) v = true.
Proof.
  intros Hds Hcfg Hl Hf. enter Hds Hcfg. unfold determineVersion.
  rewrite Hl, Hf.
  branch; repeat case_match;
    (eexists; split; [reflexivity|]; split; [reflexivity|]);
    apply Contains_app_r, Contains_here, HasPrefix_app.
Qed.

(** X2.  The warning carries the error of the step of [determineVersion]
    that failed: the loader's, whatever the tag finder would answer, or
    else the tag finder's on the task definition loaded. *)
Theorem Plan_warning_cause ctx now input ds cfg err :
  deploysource.Get (planner.TargetDSP input) ctx = Ok ds ->
  config.ECSDeploymentSpec_ (deploysource.DeploymentConfig ds) = Some cfg ->
  (LoadTaskDefinition (deploysource.AppDir ds)
     (config.TaskDefinitionFile (config.Input cfg)) = Err err \/
   exists td,
     LoadTaskDefinition (deploysource.AppDir ds)
       (config.TaskDefinitionFile (config.Input cfg)) = Ok td /\
     FindImageTag td = Err err) ->
  exists out,
    plan ctx now input
    = ((out, None),
       [zap.Warn "unable to determine target version" [zap.Error err]]) /\
    planner.Version out = "unknown".
Proof.
  intros Hds Hcfg Hv. enter Hds Hcfg. unfold determineVersion.
  destruct Hv as [->|(td & -> & ->)];
    branch; repeat case_match; (eexists; split; reflexivity).
Qed.

(** X3.  [Plan] returns no error exactly when the provider gives a deploy
    source that has the ECS section.  Otherwise the output is the zero
    value, nothing is logged, and the error is one of two: the fixed message
    of the missing section, or the provider's error in the wrapping
    message. *)
Theorem Plan_error_cases ctx now input :
  ((plan ctx now input).1.2 = None <->
   exists ds cfg,
     deploysource.Get (planner.TargetDSP input) ctx = Ok ds /\
     config.ECSDeploymentSpec_ (deploysource.DeploymentConfig ds) = Some cfg) /\
  (forall msg : error,
     (plan ctx now input).1.2 = Some msg ->
     (plan ctx now input).1.1 = planner.zero /\
     (plan ctx now input).2 = [] /\
     ((exists ds,
         deploysource.Get (planner.TargetDSP input) ctx = Ok ds /\
         msg = "missing ECSDeploymentSpec in deployment configuration") \/
      (exists e,
         deploysource.Get (planner.TargetDSP input) ctx = Err e /\
         msg = "error while preparing deploy source data (" +:+ e +:+ ")"))).
Proof.
  unfold Plan.
  destruct (deploysource.Get _ ctx) as [ds|e] eqn:Hds.
  - destruct (config.ECSDeploymentSpec_ _) as [cfg|] eqn:Hcfg.
    + split.
      * split; [by exists ds, cfg|intros _].
        destruct (version _ _); branch; by repeat case_match.
      * intros msg.
        destruct (version _ _); branch; by repeat case_match.
    + split.
      * split; [done|]. intros (ds' & cfg & [= <-] & H). congruence.
      * intros msg [= <-]. split; [done|]. split; [done|]. left. by exists ds.
  - split.
    + split; [done|]. by intros (ds' & cfg & H & _).
    + intros msg [= <-]. split; [done|]. split; [done|]. right. by exists e.
Qed.

(** X4.  [Plan] logs at most one entry.  An entry is the warning about the
    version; it is logged only by a call that returns no error and whose
    version is "unknown". *)
Theorem Plan_logs ctx now input out err logs :
  plan ctx now input = ((out, err), logs) ->
  logs = [] \/
  exists e,
    logs = [zap.Warn "unable to determine target version" [zap.Error e]] /\
    err = None /\
    planner.Version out = "unknown".
Proof.
  unfold Plan.
  destruct (deploysource.Get _ ctx) as [ds|e]; [|intros [= <- <- <-]; by left].
  destruct (config.ECSDeploymentSpec_ _) as [cfg|];
    [|intros [= <- <- <-]; by left].
  destruct (version _ _) as [v|e]; branch; repeat case_match;
    intros [= <- <- <-]; first [by left | right; by eexists].
Qed.

(** X5.  The error, the log, the version and the stages depend on what the
    provider answers alone: two requests that get the same answer differ in
    the summary at most, whatever their triggers and last successful
    commits. *)
Theorem Plan_depends_on_source ctx now input input' :
  deploysource.Get (planner.TargetDSP input) ctx
  = deploysource.Get (planner.TargetDSP input') ctx ->
  (plan ctx now input).1.2 = (plan ctx now input').1.2 /\
  (plan ctx now input).2 = (plan ctx now input').2 /\
  planner.Version (plan ctx now input).1.1
  = planner.Version (plan ctx now input').1.1 /\
  planner.Stages (plan ctx now input).1.1
  = planner.Stages (plan ctx now input').1.1.
Proof.
  intros H. unfold Plan. rewrite H. clear H.
  destruct (deploysource.Get _ ctx) as [ds|e]; [|by repeat split].
  destruct (config.ECSDeploymentSpec_ _) as [cfg|]; [|by repeat split].
  destruct (version _ _); branch; repeat case_match; by repeat split.
Qed.

(** X6.  On every branch the summary of a plan begins with the same
    sentence, which names the version of the plan. *)
Theorem Plan_summary_prefix ctx now input out logs :
  plan ctx now input = ((out, None), logs) ->
  HasPrefix (planner.Summary out)
    ("Quick sync to deploy image " +:+ planner.Version out +:+
     " and configure all traffic to it") = true.
Proof.
  intros H.
  destruct (Plan_Ok_inv _ _ _ _ _ _ _ H) as (ds & cfg & Hds & Hcfg & _).
  rewrite (Plan_summary _ _ _ _ _ _ _ Hds Hcfg H).
  apply HasPrefix_app.
Qed.

(** X7.  The reason clause the summary ends in tells the branch that was
    taken: "(forced via web)" for a quick-sync trigger alone, the
    first-deployment clause for another trigger without a last successful
    commit alone, the pipeline clause for another trigger with such a commit
    and no pipeline stage alone; and the summary ends in no bracket exactly
    when none of the three applies. *)
Theorem Plan_summary_names_branch ctx now input ds cfg out logs :
  deploysource.Get (planner.TargetDSP input) ctx = Ok ds ->
  config.ECSDeploymentSpec_ (deploysource.DeploymentConfig ds) = Some cfg ->
  plan ctx now input = ((out, None), logs) ->
  (HasSuffix (planner.Summary out) "(forced via web)" = true <->
   strategy input = model.SyncStrategy_QUICK_SYNC) /\
  (HasSuffix (planner.Summary out) "(it seems this is the first deployment)"
   = true <->
   strategy input <> model.SyncStrategy_QUICK_SYNC /\
   planner.MostRecentSuccessfulCommitHash input = "") /\
  (HasSuffix (planner.Summary out) "(pipeline was not configured)" = true <->
   strategy input <> model.SyncStrategy_QUICK_SYNC /\
   planner.MostRecentSuccessfulCommitHash input <> "" /\
   noPipeline cfg = true) /\
  (HasSuffix (planner.Summary out) ")" = false <->
   strategy input <> model.SyncStrategy_QUICK_SYNC /\
   planner.MostRecentSuccessfulCommitHash input <> "" /\
   noPipeline cfg = false).
Proof.
  intros Hds Hcfg H. rewrite (Plan_summary _ _ _ _ _ _ _ Hds Hcfg H).
  generalize (planner.Version out). intros v.
  destruct (decide (strategy input = _)) as [Hs|Hs];
    [|destruct (decide (planner.MostRecentSuccessfulCommitHash input = ""))
        as [Hh|Hh];
      [|destruct (noPipeline cfg) eqn:Hp]].
  - rewrite !head_of_HasSuffix by (vm_compute; lia).
    change (HasSuffix _ "(forced via web)") with true.
    change (HasSuffix _ "(it seems this is the first deployment)") with false.
    change (HasSuffix _ "(pipeline was not configured)") with false.
    change (HasSuffix _ ")") with true.
    intuition congruence.
  - rewrite !head_of_HasSuffix by (vm_compute; lia).
    change (HasSuffix _ "(forced via web)") with false.
    change (HasSuffix _ "(it seems this is the first deployment)") with true.
    change (HasSuffix _ "(pipeline was not configured)") with false.
    change (HasSuffix _ ")") with true.
    intuition congruence.
  - rewrite !head_of_HasSuffix by (vm_compute; lia).
    change (HasSuffix _ "(forced via web)") with false.
    change (HasSuffix _ "(it seems this is the first deployment)") with false.
    change (HasSuffix _ "(pipeline was not configured)") with true.
    change (HasSuffix _ ")") with true.
    intuition congruence.
  - assert (HasSuffix (head_of v +:+ "") "(forced via web)" = false)
      as -> by exact (head_of_no_clause v "(forced via web").
    assert (HasSuffix (head_of v +:+ "")
              "(it seems this is the first deployment)" = false)
      as -> by exact (head_of_no_clause v
                        "(it seems this is the first deployment").
    assert (HasSuffix (head_of v +:+ "") "(pipeline was not configured)"
            = false)
      as -> by exact (head_of_no_clause v "(pipeline was not configured").
    assert (HasSuffix (head_of v +:+ "") ")" = false)
      as -> by exact (head_of_no_clause v "").
    intuition congruence.
Qed.
End PlannerMore.

(** ** The Terraform example *)

(** X8.  The object of a workspace is named after it: two workspaces never
    write the same object, whatever the contents. *)
Theorem object_name_inj (workspace workspace' content content' : string) :
  wait_approval.google_storage_bucket_object.name
    (wait_approval.object workspace content)
  = wait_approval.google_storage_bucket_object.name
      (wait_approval.object workspace' content') ->
  workspace = workspace'.
Proof.
  unfold wait_approval.object.
  cbn [wait_approval.google_storage_bucket_object.name].
  intros H. apply (inj (String.append _)) in H.
  by apply app_inv_tail_string in H.
Qed.

(** X9.  The object goes to the bucket that holds the Terraform state, under
    [examples/waitapproval/] and so never under the prefix of the state. *)
Theorem object_outside_state (workspace content : string) :
  wait_approval.google_storage_bucket_object.bucket
    (wait_approval.object workspace content)
  = wait_approval.bucket wait_approval.backend /\
  HasPrefix
    (wait_approval.google_storage_bucket_object.name
       (wait_approval.object workspace content))
    "examples/waitapproval/" = true /\
  HasPrefix
    (wait_approval.google_storage_bucket_object.name
       (wait_approval.object workspace content))
    (wait_approval.prefix wait_approval.backend) = false.
Proof.
  split; [reflexivity|]. split; [|reflexivity].
  apply HasPrefix_app.
Qed.

(** ** The properties above, at work *)

Lemma Plan_version_resolved_witness :
  Sample.FindImageTag (Some "v1.2.3") = Ok "v1.2.3" /\
  exists out,
    Sample.Plan Sample.now Sample.forced = ((out, None), []) /\
    planner.Version out = "v1.2.3" /\
    Contains (planner.Summary out) "v1.2.3" = true.
Proof.
  split; [reflexivity|].
  exact (Plan_version_resolved Sample.LoadTaskDefinition Sample.FindImageTag
           context.Background Sample.now Sample.forced _ _
           (Some "v1.2.3") "v1.2.3" eq_refl eq_refl eq_refl eq_refl).
Defined.

Lemma Plan_warning_cause_witness :
  Sample.LoadTaskDefinition "/tmp/app" "missing.yaml"
  = Err "open: no such file or directory" /\
  exists out,
    Sample.Plan Sample.now Sample.first
    = ((out, None),
       [zap.Warn "unable to determine target version"
          [zap.Error "open: no such file or directory"]]) /\
    planner.Version out = "unknown".
Proof.
  split; [reflexivity|].
  exact (Plan_warning_cause Sample.LoadTaskDefinition Sample.FindImageTag
           context.Background Sample.now Sample.first _ _
           "open: no such file or directory" eq_refl eq_refl
           (or_introl eq_refl)).
Defined.

Lemma Plan_logs_witness :
  (Sample.Plan Sample.now Sample.first).2 = [] \/
  exists e,
    (Sample.Plan Sample.now Sample.first).2
    = [zap.Warn "unable to determine target version" [zap.Error e]] /\
    (Sample.Plan Sample.now Sample.first).1.2 = None /\
    planner.Version (Sample.Plan Sample.now Sample.first).1.1 = "unknown".
Proof.
  exact (Plan_logs Sample.LoadTaskDefinition Sample.FindImageTag
           context.Background Sample.now Sample.first _ _ _ eq_refl).
Defined.

Lemma Plan_depends_on_source_witness :
  planner.Summary (Sample.Plan Sample.now Sample.forced).1.1
  <> planner.Summary (Sample.Plan Sample.now Sample.piped).1.1 /\
  planner.Version (Sample.Plan Sample.now Sample.forced).1.1
  = planner.Version (Sample.Plan Sample.now Sample.piped).1.1 /\
  planner.Stages (Sample.Plan Sample.now Sample.forced).1.1
  = planner.Stages (Sample.Plan Sample.now Sample.piped).1.1.
Proof.
  split; [discriminate|].
  destruct (Plan_depends_on_source Sample.LoadTaskDefinition Sample.FindImageTag
              context.Background Sample.now Sample.forced Sample.piped eq_refl)
    as (_ & _ & Hv & Hst).
  split; [exact Hv|exact Hst].
Defined.

Lemma Plan_summary_prefix_witness :
  HasPrefix (planner.Summary (Sample.Plan Sample.now Sample.unconfigured).1.1)
    "Quick sync to deploy image v1.2.3 and configure all traffic to it" = true.
Proof.
  exact (Plan_summary_prefix Sample.LoadTaskDefinition Sample.FindImageTag
           context.Background Sample.now Sample.unconfigured _ _ eq_refl).
Defined.

Lemma Plan_summary_names_branch_witness :
  HasSuffix (planner.Summary (Sample.Plan Sample.now Sample.unconfigured).1.1)
    "(pipeline was not configured)" = true /\
  HasSuffix (planner.Summary (Sample.Plan Sample.now Sample.piped).1.1) ")"
  = false.
Proof.
  split.
  - apply (Plan_summary_names_branch
             Sample.LoadTaskDefinition Sample.FindImageTag
             context.Background Sample.now Sample.unconfigured _ _ _ _
             eq_refl eq_refl eq_refl).
    split; [discriminate|]. split; [discriminate|reflexivity].
  - apply (Plan_summary_names_branch
             Sample.LoadTaskDefinition Sample.FindImageTag
             context.Background Sample.now Sample.piped _ _ _ _
             eq_refl eq_refl eq_refl).
    split; [discriminate|]. split; [discriminate|reflexivity].
Defined.

Lemma object_name_inj_witness :
  wait_approval.google_storage_bucket_object.name
    (wait_approval.object "dev" "approved")
  = "examples/waitapproval/dev.txt" /\
  "dev" = "dev".
Proof.
  split; [reflexivity|].
  exact (object_name_inj "dev" "dev" "approved" "rejected" eq_refl).
Defined.
